(** * daily-arXiv-Lark-Bot: the paper pipeline and the Lark table sink

    A shallow embedding of [src/lark_bot/arxiv_paper.py] and
    [src/lark_bot/lark_table.py], and the properties of the filtering,
    deduplication, enrichment, record-store and sink stages.

    Python values are embedded as a small universe [pyval] of JSON-like
    values; a Python exception is the [Raise] case of [result]; code that
    talks to the file system, to the LLM service or to the table service
    threads an explicit state through a state-and-exception monad [M]. *)

From Stdlib Require Import ZArith NArith String Ascii.
From stdpp Require Import base decidable option list gmap pretty.

Local Open Scope Z_scope.
#[local] Set Warnings "-register-all,-clear-no-such-hyp".

(** ** Python values *)

Module Py.

(** A Python [str] is a sequence of Unicode code points. *)
Abbreviation pystr := (list N).

Definition str_of (s : string) : pystr :=
  N_of_ascii <$> list_ascii_of_string s.

(** The values that papers, JSON documents and service responses are made
    of.  A [dict] keeps its insertion order, so it is an association list
    (keys are strings, as in every dict of the program). *)
Inductive pyval : Type :=
  | PNone
  | PBool (b : bool)
  | PInt (z : Z)
  | PStr (s : pystr)
  | PList (l : list pyval)
  | PDict (d : list (pystr * pyval)).

(** Exceptions.  [SystemExit] is what [exit(code)] raises; it is the only
    one that is not a subclass of [Exception]. *)
Inductive exn : Type :=
  | KeyError (k : pystr)
  | TypeError
  | AttributeError
  | IndexError
  | ValueError
  | FileNotFoundError
  | JSONDecodeError
  | HTTPError (status : Z) (text : pystr)
  | RequestException (what : pystr)
  | ServiceError (what : pystr)
  | PlainException (msg : pystr) (arg : pyval)
  | SystemExit (code : Z).

Definition is_Exception (e : exn) : bool :=
  match e with
  | SystemExit _ => false
  | _ => true
  end.

Inductive result (A : Type) : Type :=
  | Ok (a : A)
  | Raise (e : exn).
Arguments Ok {A} a.
Arguments Raise {A} e.

#[global] Instance result_ret : MRet result := @Ok.
#[global] Instance result_bind : MBind result := λ A B f r,
  match r with
  | Ok a => f a
  | Raise e => Raise e
  end.

(** [bool(v)] *)
Definition truthy (v : pyval) : bool :=
  match v with
  | PNone => false
  | PBool b => b
  | PInt z => negb (z =? 0)
  | PStr s => match s with [] => false | _ => true end
  | PList l => match l with [] => false | _ => true end
  | PDict d => match d with [] => false | _ => true end
  end.

(** *** dict operations *)

Fixpoint dict_get (d : list (pystr * pyval)) (k : pystr) : option pyval :=
  match d with
  | [] => None
  | (k', v) :: d' => if decide (k' = k) then Some v else dict_get d' k
  end.

(** [d[k] = v] on a dict: an existing key keeps its position. *)
Fixpoint dict_set (d : list (pystr * pyval)) (k : pystr) (v : pyval)
  : list (pystr * pyval) :=
  match d with
  | [] => [(k, v)]
  | (k', v') :: d' =>
      if decide (k' = k) then (k, v) :: d' else (k', v') :: dict_set d' k v
  end.

(** [v[k]] for a string key [k]. *)
Definition subscript (v : pyval) (k : pystr) : result pyval :=
  match v with
  | PDict d =>
      match dict_get d k with
      | Some x => Ok x
      | None => Raise (KeyError k)
      end
  | _ => Raise TypeError
  end.

(** [v[k] = x] for a string key [k]. *)
Definition setitem (v : pyval) (k : pystr) (x : pyval) : result pyval :=
  match v with
  | PDict d => Ok (PDict (dict_set d k x))
  | _ => Raise TypeError
  end.

(** [v == n] for an integer [n] *)
Definition eq_int (v : pyval) (n : Z) : bool :=
  match v with
  | PInt z => z =? n
  | PBool b => (if b then 1 else 0) =? n
  | _ => false
  end.

(** [v.get(k, default)] *)
Definition get_method (v : pyval) (k : pystr) (dflt : pyval)
  : result pyval :=
  match v with
  | PDict d => Ok (default dflt (dict_get d k))
  | _ => Raise AttributeError
  end.

(** [iter(v)]: the items a [for] loop or a generator visits. *)
Definition py_iter (v : pyval) : result (list pyval) :=
  match v with
  | PList l => Ok l
  | PDict d => Ok ((λ kv, PStr kv.1) <$> d)
  | PStr s => Ok ((λ c, PStr [c]) <$> s)
  | _ => Raise TypeError
  end.

(** *** hashing

    The members of a [set] are compared with [==] after hashing: [True]
    and [1] are the same member; lists and dicts are unhashable. *)
Inductive key : Type :=
  | KNone
  | KNum (z : Z)
  | KStr (s : pystr).

#[global] Instance key_eq_dec : EqDecision key.
Proof. solve_decision. Defined.

#[global] Instance key_countable : Countable key.
Proof.
  refine (inj_countable'
    (λ k, match k with
          | KNone => inl ()
          | KNum z => inr (inl z)
          | KStr s => inr (inr s)
          end)
    (λ x, match x with
          | inl _ => KNone
          | inr (inl z) => KNum z
          | inr (inr s) => KStr s
          end) _).
  by intros [].
Defined.

Definition hash_key (v : pyval) : result key :=
  match v with
  | PNone => Ok KNone
  | PBool b => Ok (KNum (if b then 1 else 0))
  | PInt z => Ok (KNum z)
  | PStr s => Ok (KStr s)
  | PList _ | PDict _ => Raise TypeError
  end.

(** *** str methods *)

(** The code points [str.split()] treats as separators. *)
Definition isspace (c : N) : bool :=
  bool_decide (c ∈ [0x09; 0x0A; 0x0B; 0x0C; 0x0D; 0x1C; 0x1D; 0x1E; 0x1F;
                    0x20; 0x85; 0xA0; 0x1680; 0x2000; 0x2001; 0x2002;
                    0x2003; 0x2004; 0x2005; 0x2006; 0x2007; 0x2008; 0x2009;
                    0x200A; 0x2028; 0x2029; 0x202F; 0x205F; 0x3000]%N).

(** [s.split()]: the maximal runs of non-separators.  [cur] is the run
    being read, most recent code point first. *)
Fixpoint split_from (cur : pystr) (s : pystr) : list pystr :=
  match s with
  | [] => match cur with [] => [] | _ => [rev cur] end
  | c :: s' =>
      if isspace c
      then match cur with
           | [] => split_from [] s'
           | _ => rev cur :: split_from [] s'
           end
      else split_from (c :: cur) s'
  end.

Definition split (s : pystr) : list pystr := split_from [] s.

(** [sub in s] *)
Fixpoint str_contains (sub s : pystr) : bool :=
  match s with
  | [] => bool_decide (sub = [])
  | _ :: s' => bool_decide (sub `prefix_of` s) || str_contains sub s'
  end.

(** [s.split(sep)[-1]] for a one-character separator: what follows the
    last separator. *)
Fixpoint last_segment (sep : N) (s : pystr) : pystr :=
  match s with
  | [] => []
  | c :: s' =>
      if decide (sep ∈ s') then last_segment sep s'
      else if decide (c = sep) then s' else s
  end.

(** ** State and exceptions *)

Definition M (S A : Type) : Type := S → S * result A.

Definition ret {S A} (a : A) : M S A := λ s, (s, Ok a).
Definition raise {S A} (e : exn) : M S A := λ s, (s, Raise e).
Definition lift {S A} (r : result A) : M S A := λ s, (s, r).
Definition bind {S A B} (m : M S A) (f : A → M S B) : M S B := λ s,
  match m s with
  | (s', Ok a) => f a s'
  | (s', Raise e) => (s', Raise e)
  end.

(** [try: m except Exception as e: h e] *)
Definition try_except {S A} (m : M S A) (h : exn → M S A) : M S A := λ s,
  match m s with
  | (s', Ok a) => (s', Ok a)
  | (s', Raise e) => if is_Exception e then h e s' else (s', Raise e)
  end.

(** [for x in xs: body x] *)
Fixpoint for_each {S A} (xs : list A) (body : A → M S unit) : M S unit :=
  match xs with
  | [] => ret ()
  | x :: xs' => bind (body x) (λ _, for_each xs' body)
  end.

(** A loop that carries a local variable [acc] from one iteration to the
    next. *)
Fixpoint for_acc {S A B} (xs : list A) (acc : B) (body : B → A → M S B)
  : M S B :=
  match xs with
  | [] => ret acc
  | x :: xs' => bind (body acc x) (λ acc', for_acc xs' acc' body)
  end.

#[global] Instance M_ret {S} : MRet (M S) := λ A, @ret S A.
#[global] Instance M_bind {S} : MBind (M S) := λ A B f m, bind m f.

End Py.

(** ** [src/lark_bot/arxiv_paper.py] *)

Module ArxivPaper.
Import Py.

(** *** [deduplicate_papers_across_categories]

    The loop over [papers], with its two locals: the set [papers_id] of the
    ids seen so far and the list [deduplicated_papers] built so far. *)
Fixpoint dedup_loop (papers : list pyval) (papers_id : gset key)
    (deduplicated_papers : list pyval) : result (list pyval) :=
  match papers with
  | [] => Ok deduplicated_papers
  | paper :: papers' =>
      i ← subscript paper (str_of "id");
      k ← hash_key i;
      if decide (k ∈ papers_id)
      then dedup_loop papers' papers_id deduplicated_papers
      else dedup_loop papers' ({[k]} ∪ papers_id)
                      (deduplicated_papers ++ [paper])
  end.

Definition deduplicate_papers_across_categories (papers : list pyval)
  : result (list pyval) :=
  dedup_loop papers ∅ [].

(** *** [filter_papers_by_keyword]

    [str.lower] is the interpreter's Unicode case mapping; it is a
    parameter of the development. *)
Section Keyword.
Variable lower : pystr → pystr.

(** [v.lower()] *)
Definition lower_method (v : pyval) : result pystr :=
  match v with
  | PStr s => Ok (lower s)
  | _ => Raise AttributeError
  end.

Fixpoint keyword_loop (keyword_set : gset pystr) (papers : list pyval)
    (results : list pyval) : result (list pyval) :=
  match papers with
  | [] => Ok results
  | paper :: papers' =>
      summary ← subscript paper (str_of "summary");
      lowered ← lower_method summary;
      if decide (keyword_set ∩ list_to_set (split lowered) ≠ ∅)
      then keyword_loop keyword_set papers' (results ++ [paper])
      else keyword_loop keyword_set papers' results
  end.

Definition filter_papers_by_keyword (papers : list pyval)
    (keyword_list : list pystr) : result (list pyval) :=
  keyword_loop (list_to_set (lower <$> keyword_list)) papers [].
End Keyword.

(** *** [filter_papers_using_llm]

    [is_paper_match] is imported from the [llm] module: a call to the LLM
    service, which answers with a value or raises, and may change the
    state [world] of the service. *)
Section Llm.
Context {world : Type}.
Variable is_paper_match : pyval → pystr → pyval → M world pyval.

(** The body of the loop: [results] is the list built so far. *)
Definition classify (paper_to_hunt : pystr) (config : pyval)
    (results : list pyval) (paper : pyval) : M world (list pyval) :=
  matched ← is_paper_match paper paper_to_hunt config;
  if truthy matched then mret (results ++ [paper]) else mret results.

Definition filter_papers_using_llm (papers : list pyval)
    (paper_to_hunt : pystr) (config : pyval) : M world (list pyval) :=
  for_acc papers [] (classify paper_to_hunt config).
End Llm.

(** *** The record store: [deduplicate_papers], [prepend_to_json_file]

    The file system maps the paths of the existing files to their text.
    [json.loads] and [json.dumps] are the standard library's codec and are
    parameters; [json_loads] answers [None] where [json.loads] raises
    [JSONDecodeError]. *)
Abbreviation filesystem := (gmap pystr pystr).

(** [os.path.exists(path)] *)
Definition os_path_exists (path : pystr) : M filesystem bool :=
  λ fs, (fs, Ok (bool_decide (is_Some (fs !! path)))).

(** [with open(path, 'r') as f: content = f.read()] *)
Definition read_text (path : pystr) : M filesystem pystr :=
  λ fs, match fs !! path with
        | Some content => (fs, Ok content)
        | None => (fs, Raise FileNotFoundError)
        end.

(** [open(path, 'w')]: the file is created or truncated. *)
Definition open_w (path : pystr) : M filesystem () :=
  λ fs, (<[path := []]> fs, Ok ()).

(** What has been written when the file opened by [open_w] is closed. *)
Definition write_text (path : pystr) (text : pystr) : M filesystem () :=
  λ fs, (<[path := text]> fs, Ok ()).

(** [data + content], where [data] is a list *)
Definition list_add (data : list pyval) (content : pyval)
  : result (list pyval) :=
  match content with
  | PList l => Ok (data ++ l)
  | _ => Raise TypeError
  end.

(** [set(d['id'] for d in items)], added to [acc] *)
Fixpoint id_set (items : list pyval) (acc : gset key) : result (gset key) :=
  match items with
  | [] => Ok acc
  | d :: items' =>
      i ← subscript d (str_of "id");
      k ← hash_key i;
      id_set items' ({[k]} ∪ acc)
  end.

(** [[d for d in papers if d['id'] not in content_id]] *)
Fixpoint not_in_store (content_id : gset key) (papers : list pyval)
  : result (list pyval) :=
  match papers with
  | [] => Ok []
  | d :: papers' =>
      i ← subscript d (str_of "id");
      k ← hash_key i;
      rest ← not_in_store content_id papers';
      Ok (if decide (k ∈ content_id) then rest else d :: rest)
  end.

Section Store.
Variable json_loads : pystr → option pyval.
Variable json_dumps : pyval → pystr.

Definition loads (text : pystr) : result pyval :=
  match json_loads text with
  | Some v => Ok v
  | None => Raise JSONDecodeError
  end.

Definition deduplicate_papers (papers : list pyval) (file_path : pystr)
  : M filesystem (list pyval) :=
  present ← os_path_exists file_path;
  if (present : bool) then
    content ← read_text file_path;
    if truthy (PStr content) then
      content ← lift (loads content);
      items ← lift (py_iter content);
      content_id ← lift (id_set items ∅);
      lift (not_in_store content_id papers)
    else mret papers
  else mret papers.

Definition prepend_to_json_file (file_path : pystr) (data : list pyval)
  : M filesystem () :=
  present ← os_path_exists file_path;
  content ← (if (present : bool) then
               content ← read_text file_path;
               if truthy (PStr content) then lift (loads content)
               else mret (PList [])
             else mret (PList []));
  open_w file_path;;
  merged ← lift (list_add data content);
  write_text file_path (json_dumps (PList merged)).
End Store.

(** *** [translate_abstracts]

    The papers are dict objects shared with the caller and updated in
    place: the list holds references into a heap of objects.
    [translate_abstract] is imported from the [llm] module, like
    [is_paper_match]. *)
Abbreviation loc := nat.
Definition heap : Type := loc → pyval.

Definition heap_store (h : heap) (l : loc) (v : pyval) : heap :=
  λ l', if decide (l' = l) then v else h l'.

Section Translate.
Context {world : Type}.
Variable translate_abstract : pyval → pyval → M world pyval.

(** [paper[k]] *)
Definition getitem_at (paper : loc) (k : pystr)
  : M (heap * world) pyval :=
  λ '(h, w), ((h, w), subscript (h paper) k).

(** [paper[k] = x] *)
Definition setitem_at (paper : loc) (k : pystr) (x : pyval)
  : M (heap * world) () :=
  λ '(h, w),
    match setitem (h paper) k x with
    | Ok v => ((heap_store h paper v, w), Ok ())
    | Raise e => ((h, w), Raise e)
    end.

Definition call_translate (abstract config : pyval)
  : M (heap * world) pyval :=
  λ '(h, w), let '(w', r) := translate_abstract abstract config w in
             ((h, w'), r).

(** The body of the loop. *)
Definition translate_paper (config : pyval) (paper : loc)
  : M (heap * world) () :=
  abstract ← getitem_at paper (str_of "summary");
  zh_abstract ← call_translate abstract config;
  setitem_at paper (str_of "zh_summary") PNone;;
  if truthy zh_abstract
  then setitem_at paper (str_of "zh_summary") zh_abstract
  else mret ().

Definition translate_abstracts (papers : list loc) (config : pyval)
  : M (heap * world) (list loc) :=
  for_each papers (translate_paper config);;
  mret papers.
End Translate.

End ArxivPaper.

(** ** [src/lark_bot/lark_table.py] *)

Module LarkTable.
Import Py.

(** The fields of a new row.  [Date] is [time.time() * 1000], a float. *)
Record fields_data {float : Type} : Type := {
  Title : pyval;
  Link : pyval;
  Date : float;
  Summary : pyval;
}.
Arguments fields_data : clear implicits.

(** The HTTP requests the module sends; each stands for the URL, headers
    and body that the code builds from its parts. *)
Inductive request {float : Type} : Type :=
  | TenantAccessTokenRequest (app_id app_secret : pyval)
  | GetNodeRequest (tenant_access_token : pyval) (node_token : pystr)
  | CreateRecordRequest (tenant_access_token app_token table_id : pyval)
      (fields : fields_data float) (user_id_type : pyval).
Arguments request : clear implicits.

(** What [requests.post] and [requests.get] come back with: an exception,
    or a response with its status code, its text and, where the text is
    JSON, the value [response.json()] decodes it to. *)
Inductive http_outcome : Type :=
  | ConnectionFailed (what : pystr)
  | Response (status_code : Z) (text : pystr) (body : option pyval).

(** The lines printed on stdout ([Out]) and stderr ([Err]).  [Sending r]
    stands for the lines that announce the request [r]: its URL and what
    is sent with it. *)
Inductive message {float : Type} : Type :=
  | Sending (r : request float)
  | ResponseJson (result : pyval)
  | TokenRefused (msg : pyval)
  | TokenError (e : exn)
  | ResponseText (text : pystr)
  | NodeRefused (result : pyval)
  | NodeInfo (node_token obj_type obj_token title : pyval)
  | NodeError (e : exn)
  | RecordRefused (msg : pyval)
  | RecordError (e : exn)
  | PushTokenError (e : exn)
  | NoAppToken
  | NoTableId
  | ParsedBaseUrl (app_token table_id : pyval)
  | ParseBaseUrlFailed (e : exn)
  | PushRecordFailed (e : exn)
  | RecordCreated (record_id : pyval)
  | RecordCreatedWithoutId
  | Finished.
Arguments message : clear implicits.

Inductive logline {float : Type} : Type :=
  | Out (m : message float)
  | Err (m : message float).
Arguments logline : clear implicits.

Record environ : Type := {
  LARK_TABLE_APP_ID : option pystr;
  LARK_TABLE_APP_SECRET : option pystr;
  LARK_TABLE_BASE_URL : option pystr;
  USER_ID_TYPE : option pystr;
}.

(** [os.getenv(name)], [os.getenv(name, default)] *)
Definition getenv (v : option pystr) : pyval :=
  match v with Some s => PStr s | None => PNone end.
Definition getenv_default (v : option pystr) (dflt : pystr) : pyval :=
  PStr (default dflt v).

Section Sink.
Context {world float : Type}.
(** The table service and the clock. *)
Variable requests_send : request float → world → world * http_outcome.
Variable time_time : world → world * float.
Variable times_1000 : float → float.
(** [urllib.parse]: [urlparse(url)] gives the path and the query of a
    URL, or raises [ValueError] ([None] here); [parse_qs] gives the values
    of each query parameter. *)
Variable urlparse : pystr → option (pystr * pystr).
Variable parse_qs : pystr → gmap pystr (list pystr).
Variable env : environ.

(** The state of a run: the service and what has been printed so far. *)
Record run_state : Type := {
  service : world;
  console : list (logline float);
}.

(** The state after one more line has been printed. *)
Definition say (s : run_state) (l : logline float) : run_state :=
  {| service := service s; console := console s ++ [l] |}.

Definition print (l : logline float) : M run_state () :=
  λ s, (say s l, Ok ()).

Definition send (r : request float) : M run_state http_outcome :=
  λ s, let '(w, o) := requests_send r (service s) in
       ({| service := w; console := console s |}, Ok o).

Definition now : M run_state float :=
  λ s, let '(w, t) := time_time (service s) in
       ({| service := w; console := console s |}, Ok t).

(** [requests.post(...)] or [requests.get(...)], then
    [response.raise_for_status()]: the response text and its JSON. *)
Definition send_checked (r : request float)
  : M run_state (pystr * option pyval) :=
  o ← send r;
  match o with
  | ConnectionFailed what => raise (RequestException what)
  | Response status_code text body =>
      if bool_decide (400 ≤ status_code < 600)
      then raise (HTTPError status_code text)
      else mret (text, body)
  end.

(** [response.json()] *)
Definition response_json (body : option pyval) : M run_state pyval :=
  match body with
  | Some v => mret v
  | None => raise JSONDecodeError
  end.

(** [if hasattr(e, 'response') and e.response is not None:
       print(e.response.text)] *)
Definition print_response_text (e : exn) : M run_state () :=
  match e with
  | HTTPError _ text => print (Err (ResponseText text))
  | _ => mret ()
  end.

Definition get_tenant_access_token (app_id app_secret : pyval)
  : M run_state (pyval * option exn) :=
  let r := TenantAccessTokenRequest app_id app_secret in
  try_except
    (print (Out (Sending r));;
     '(text, body) ← send_checked r;
     result ← response_json body;
     print (Out (ResponseJson result));;
     code ← lift (get_method result (str_of "code") (PInt 0));
     if negb (eq_int code 0) then
       msg ← lift (get_method result (str_of "msg")
                     (PStr (str_of "unknown error")));
       print (Err (TokenRefused msg));;
       mret (PStr [], Some (PlainException
               (str_of "failed to get tenant_access_token") (PStr text)))
     else
       token ← lift (subscript result (str_of "tenant_access_token"));
       mret (token, None))
    (λ e,
       print (Err (TokenError e));;
       print_response_text e;;
       mret (PStr [], Some e)).

Definition get_wiki_node_info (tenant_access_token : pyval)
    (node_token : pystr) : M run_state pyval :=
  let r := GetNodeRequest tenant_access_token node_token in
  try_except
    (print (Out (Sending r));;
     '(text, body) ← send_checked r;
     result ← response_json body;
     code ← lift (get_method result (str_of "code") (PInt 0));
     (if negb (eq_int code 0) then
        print (Err (NodeRefused result));;
        msg ← lift (get_method result (str_of "msg")
                      (PStr (str_of "unknown error")));
        raise (PlainException (str_of "failed to get wiki node info") msg)
      else mret ());;
     data ← lift (get_method result (str_of "data") PNone);
     missing ← (if negb (truthy data) then mret true
                else
                  data ← lift (subscript result (str_of "data"));
                  node ← lift (get_method data (str_of "node") PNone);
                  mret (negb (truthy node)));
     (if (missing : bool)
      then raise (PlainException (str_of "no node info") PNone)
      else mret ());;
     data ← lift (subscript result (str_of "data"));
     node_info ← lift (subscript data (str_of "node"));
     node_token ← lift (get_method node_info (str_of "node_token") PNone);
     obj_type ← lift (get_method node_info (str_of "obj_type") PNone);
     obj_token ← lift (get_method node_info (str_of "obj_token") PNone);
     title ← lift (get_method node_info (str_of "title") PNone);
     print (Out (NodeInfo node_token obj_type obj_token title));;
     mret node_info)
    (λ e, print (Err (NodeError e));; raise e).

(** [query_params.get(name, [None])[0]] *)
Definition first_param (query_params : gmap pystr (list pystr))
    (name : pystr) : result pyval :=
  match query_params !! name with
  | None => Ok PNone
  | Some [] => Raise IndexError
  | Some (v :: _) => Ok (PStr v)
  end.

(** With [LARK_TABLE_BASE_URL] unset, [urlparse(None)] has a [bytes]
    path, and [pathname.split("/")] raises [TypeError]. *)
Definition parse_base_url (tenant_access_token : pyval)
    (base_url_string : pyval) : M run_state pyval :=
  '(pathname, query) ←
    match base_url_string with
    | PStr url =>
        match urlparse url with
        | Some parsed_url => mret parsed_url
        | None => raise ValueError
        end
    | _ => raise TypeError
    end;
  let app_token := last_segment 47%N pathname in
  app_token ←
    (if str_contains (str_of "/wiki/") pathname then
       node_info ← get_wiki_node_info tenant_access_token app_token;
       lift (get_method node_info (str_of "obj_token") (PStr app_token))
     else mret (PStr app_token));
  let query_params := parse_qs query in
  view_id ← lift (first_param query_params (str_of "view"));
  table_id ← lift (first_param query_params (str_of "table"));
  mret (PDict [(str_of "app_token", app_token);
               (str_of "table_id", table_id);
               (str_of "view_id", view_id)]).

Definition create_bitable_record
    (tenant_access_token app_token table_id : pyval)
    (fields : fields_data float) (user_id_type : pyval)
  : M run_state (pyval * option exn) :=
  let r := CreateRecordRequest tenant_access_token app_token table_id
                               fields user_id_type in
  try_except
    (print (Out (Sending r));;
     '(text, body) ← send_checked r;
     result ← response_json body;
     print (Out (ResponseJson result));;
     code ← lift (get_method result (str_of "code") (PInt 0));
     if negb (eq_int code 0) then
       msg ← lift (get_method result (str_of "msg")
                     (PStr (str_of "unknown error")));
       print (Err (RecordRefused msg));;
       mret (PDict [], Some (PlainException
               (str_of "failed to create record") (PStr text)))
     else mret (result, None))
    (λ e,
       print (Err (RecordError e));;
       print_response_text e;;
       mret (PDict [], Some e)).

(** [exit(1)] *)
Definition exit {A} (code : Z) : M run_state A := raise (SystemExit code).

Definition app_id : pyval := getenv (LARK_TABLE_APP_ID env).
Definition app_secret : pyval := getenv (LARK_TABLE_APP_SECRET env).
Definition base_url : pyval := getenv (LARK_TABLE_BASE_URL env).
Definition user_id_type : pyval :=
  getenv_default (USER_ID_TYPE env) (str_of "open_id").

(** The dict [fields_data] of an iteration of the loop of
    [push_results_to_lark_table]. *)
Definition build_fields (paper : pyval) : M run_state (fields_data float) :=
  title ← lift (subscript paper (str_of "title"));
  text ← lift (subscript paper (str_of "pdf"));
  link ← lift (subscript paper (str_of "pdf"));
  t ← now;
  summary ← lift (get_method paper (str_of "zh_summary") PNone);
  mret {| Title := title;
          Link := PDict [(str_of "text", text); (str_of "link", link)];
          Date := times_1000 t;
          Summary := summary |}.

(** The [try] block of an iteration, with its handler: the app token and
    the table id of the destination. *)
Definition resolve_destination (tenant_access_token : pyval)
  : M run_state (pyval * pyval) :=
  try_except
    (bitable_info ← parse_base_url tenant_access_token base_url;
     app_token ← lift (subscript bitable_info (str_of "app_token"));
     table_id ← lift (subscript bitable_info (str_of "table_id"));
     (if negb (truthy app_token)
      then print (Err NoAppToken);; exit 1 else mret ());;
     (if negb (truthy table_id)
      then print (Err NoTableId);; exit 1 else mret ());;
     print (Out (ParsedBaseUrl app_token table_id));;
     mret (app_token, table_id))
    (λ e, print (Err (ParseBaseUrlFailed e));; exit 1).

(** [result.get("data", {}).get("record", {}).get("record_id", "")] *)
Definition record_id_of (res : pyval) : result pyval :=
  data ← get_method res (str_of "data") (PDict []);
  record ← get_method data (str_of "record") (PDict []);
  get_method record (str_of "record_id") (PStr []).

(** One iteration of the loop of [push_results_to_lark_table]. *)
Definition push_paper (paper : pyval) : M run_state () :=
  fields_data ← build_fields paper;
  '(tenant_access_token, err) ← get_tenant_access_token app_id app_secret;
  match err with
  | Some e => print (Err (PushTokenError e));; exit 1
  | None =>
    '(app_token, table_id) ← resolve_destination tenant_access_token;
    '(result, err) ← create_bitable_record tenant_access_token app_token
                       table_id fields_data user_id_type;
    match err with
    | Some e => print (Err (PushRecordFailed e));; exit 1
    | None =>
      record_id ← lift (record_id_of result);
      if truthy record_id
      then print (Out (RecordCreated record_id))
      else print (Out RecordCreatedWithoutId)
    end
  end.

Definition push_results_to_lark_table (papers : list pyval)
  : M run_state () :=
  for_each papers push_paper;;
  print (Out Finished).
End Sink.

End LarkTable.

(** ** Vocabulary of the properties *)

Module Props.
Import Py ArxivPaper.

(** The id of a paper as a set member: [paper['id']], hashed. *)
Definition paper_key (paper : pyval) : result key :=
  i ← subscript paper (str_of "id"); hash_key i.

Definition has_key (paper : pyval) : Prop :=
  ∃ k, paper_key paper = Ok k.

(** The papers of [papers] that are the first of their id, ids of [seen]
    counting as seen before. *)
Fixpoint firsts (seen : gset key) (papers : list pyval)
  : result (list pyval) :=
  match papers with
  | [] => Ok []
  | paper :: papers' =>
      k ← paper_key paper;
      if decide (k ∈ seen) then firsts seen papers'
      else r ← firsts ({[k]} ∪ seen) papers'; Ok (paper :: r)
  end.

(** A paper whose ['summary'] is a string. *)
Definition has_summary (paper : pyval) : Prop :=
  ∃ s, subscript paper (str_of "summary") = Ok (PStr s).

(** The keyword filter's criterion in the words of its contract: some
    keyword, lowercased, is one of the whitespace-delimited tokens of the
    lowercased summary. *)
Definition keyword_match (lower : pystr → pystr) (keyword_list : list pystr)
    (paper : pyval) : Prop :=
  match subscript paper (str_of "summary") with
  | Ok (PStr s) => Exists (λ kw, lower kw ∈ split (lower s)) keyword_list
  | _ => False
  end.

#[global] Instance keyword_match_dec lower keyword_list paper :
  Decision (keyword_match lower keyword_list paper).
Proof.
  unfold keyword_match.
  destruct (subscript paper (str_of "summary")) as [[]|]; apply _.
Defined.

(** A string with a whitespace code point in it. *)
Definition has_space (s : pystr) : Prop := Exists (λ c, isspace c = true) s.

(** [str.lower] on strings whose only cased code points are the ASCII
    letters. *)
Definition ascii_lower (s : pystr) : pystr :=
  (λ c, if bool_decide (65 ≤ c ≤ 90)%N then (c + 32)%N else c) <$> s.

(** The id of a paper where it has one. *)
Definition key_of (paper : pyval) : option key :=
  match paper_key paper with
  | Ok k => Some k
  | Raise _ => None
  end.

(** Reading the record store: the text of the file, decoded. *)
Definition read_store (json_loads : pystr → option pyval)
    (fs : filesystem) (path : pystr) : option pyval :=
  fs !! path ≫= json_loads.

(** The entries the store holds: none when the file is missing or empty,
    and otherwise the list its text decodes to. *)
Definition store_holds (json_loads : pystr → option pyval)
    (fs : filesystem) (path : pystr) (entries : list pyval) : Prop :=
  (fs !! path = None ∨ fs !! path = Some []) ∧ entries = []
  ∨ ∃ text, fs !! path = Some text ∧ text ≠ []
            ∧ json_loads text = Some (PList entries).

(** [m] raises nothing but subclasses of [Exception]. *)
Definition raises_only_Exception {S A} (m : M S A) : Prop :=
  ∀ s s' e, m s = (s', Raise e) → is_Exception e = true.

(** [m] returns, whatever the state. *)
Definition never_raises {S A} (m : M S A) : Prop :=
  ∀ s, ∃ s' a, m s = (s', Ok a).

(** A response of the table service that is not a success: no response
    at all, an HTTP error status, a body that is not a JSON object, or an
    error code in the body. *)
Definition refused (o : LarkTable.http_outcome) : Prop :=
  match o with
  | LarkTable.ConnectionFailed _ => True
  | LarkTable.Response status_code _ body =>
      400 ≤ status_code < 600
      ∨ match body with
        | Some (PDict d) =>
            eq_int (default (PInt 0) (dict_get d (str_of "code"))) 0 = false
        | _ => True
        end
  end.

(** Sample papers. *)
Definition sample_paper (i summary : string) : pyval :=
  PDict [(str_of "id", PStr (str_of i));
         (str_of "title", PStr (str_of "A title"));
         (str_of "summary", PStr (str_of summary));
         (str_of "pdf", PStr (str_of "https://arxiv.org/pdf/x"))].

Definition sample_papers : list pyval :=
  [sample_paper "2401.00001" "Quantum error correction";
   sample_paper "2401.00002" "A study of quantumly things";
   sample_paper "2401.00001" "Seen again in cs.LG";
   sample_paper "2401.00003" "robots and QUANTUM sensors"].

(** A serializer and a decoder for the sample documents: JSON without
    escape sequences, and a decoder that recognises the serialisations of
    the documents of a given list and rejects every other text. *)
Fixpoint sample_dumps (v : pyval) : pystr :=
  match v with
  | PNone => str_of "null"
  | PBool b => str_of (if b then "true" else "false")
  | PInt z => str_of (pretty z)
  | PStr s => [34%N] ++ s ++ [34%N]
  | PList l =>
      str_of "["
      ++ (fix items (l : list pyval) : pystr :=
            match l with
            | [] => []
            | [x] => sample_dumps x
            | x :: l' => sample_dumps x ++ str_of ", " ++ items l'
            end) l
      ++ str_of "]"
  | PDict d =>
      str_of "{"
      ++ (fix items (d : list (pystr * pyval)) : pystr :=
            match d with
            | [] => []
            | [(k, x)] => [34%N] ++ k ++ [34%N] ++ str_of ": " ++ sample_dumps x
            | (k, x) :: d' =>
                [34%N] ++ k ++ [34%N] ++ str_of ": " ++ sample_dumps x
                ++ str_of ", " ++ items d'
            end) d
      ++ str_of "}"
  end.

Definition sample_loads (documents : list pyval) (text : pystr)
  : option pyval :=
  find (λ v, bool_decide (sample_dumps v = text)) documents.

Definition id_only (i : string) : pyval :=
  PDict [(str_of "id", PStr (str_of i))].

Definition sample_store_path : pystr := str_of "papers.json".

Definition stored_ab : list pyval := [id_only "a"; id_only "b"].

Definition sample_fs : filesystem :=
  {[ sample_store_path := sample_dumps (PList stored_ab) ]}.

Definition sample_topic : pystr := str_of "quantum computing".
Definition sample_config : pyval :=
  PDict [(str_of "model", PStr (str_of "some-model"))].

(** A match service that is down for the paper 2401.00002 and approves
    every other paper; its state counts the calls. *)
Definition sample_match (paper : pyval) (paper_to_hunt : pystr)
    (config : pyval) : M nat pyval :=
  λ calls,
    match subscript paper (str_of "id") with
    | Ok (PStr i) =>
        if decide (i = str_of "2401.00002")
        then (S calls, Raise (ServiceError (str_of "service unavailable")))
        else (S calls, Ok (PBool true))
    | _ => (S calls, Ok (PBool true))
    end.

(** A translation service that is down for the abstract of 2401.00002,
    answers the empty string for the third sample paper, and otherwise
    answers a text; its state counts the calls. *)
Definition sample_translate (abstract config : pyval) : M nat pyval :=
  λ calls,
    match abstract with
    | PStr s =>
        if decide (s = str_of "A study of quantumly things")
        then (S calls, Raise (ServiceError (str_of "service unavailable")))
        else if decide (s = str_of "Seen again in cs.LG")
        then (S calls, Ok (PStr []))
        else (S calls, Ok (PStr (str_of "zh: " ++ s)))
    | _ => (S calls, Raise TypeError)
    end.

(** The sample papers as objects 0, 1, 2, 3 of a heap. *)
Definition sample_heap : heap := λ l, nth l sample_papers PNone.

End Props.

(** ** A sample table service *)

Module SinkSamples.
Import Py LarkTable.

Definition sink_paper (title : string) : pyval :=
  PDict [(str_of "id", PStr (str_of "2401.00001"));
         (str_of "title", PStr (str_of title));
         (str_of "summary", PStr (str_of "An abstract"));
         (str_of "pdf", PStr (str_of "https://arxiv.org/pdf/2401.00001"));
         (str_of "zh_summary", PNone)].

(** A table service that counts the requests it gets.  It grants every
    token request; it refuses the row titled Refused with HTTP 403,
    creates the row titled No id without telling its id, and creates every
    other row. *)
Definition sample_service (r : request Z) (requests : nat)
  : nat * http_outcome :=
  (S requests,
   match r with
   | TenantAccessTokenRequest _ _ =>
       Response 200 (str_of "(token)")
         (Some (PDict [(str_of "code", PInt 0);
                       (str_of "tenant_access_token", PStr (str_of "t-0"))]))
   | GetNodeRequest _ _ =>
       Response 200 (str_of "(node)")
         (Some (PDict [(str_of "code", PInt 0);
                       (str_of "data", PDict [(str_of "node",
                          PDict [(str_of "obj_token",
                                  PStr (str_of "app0"))])])]))
   | CreateRecordRequest _ _ _ fields _ =>
       match Title fields with
       | PStr t =>
           if decide (t = str_of "Refused")
           then Response 403 (str_of "(forbidden)") None
           else if decide (t = str_of "No id")
           then Response 200 (str_of "(created)")
                  (Some (PDict [(str_of "code", PInt 0)]))
           else Response 200 (str_of "(created)")
                  (Some (PDict [(str_of "code", PInt 0);
                     (str_of "data", PDict [(str_of "record",
                        PDict [(str_of "record_id",
                                PStr (str_of "rec0"))])])]))
       | _ => Response 400 (str_of "(bad request)") None
       end
   end).

Definition sample_clock (requests : nat) : nat * Z := (requests, 1700000000).

(** The answers of [urlparse] and [parse_qs] for the base URL of the
    sample environment. *)
Definition sample_urlparse (url : pystr) : option (pystr * pystr) :=
  Some (str_of "/base/app0", str_of "table=tbl0&view=vew0").

Definition sample_parse_qs (query : pystr) : gmap pystr (list pystr) :=
  {[ str_of "table" := [str_of "tbl0"]; str_of "view" := [str_of "vew0"] ]}.

Definition sample_env : environ :=
  {| LARK_TABLE_APP_ID := Some (str_of "cli_0");
     LARK_TABLE_APP_SECRET := Some (str_of "secret");
     LARK_TABLE_BASE_URL :=
       Some (str_of "https://example.feishu.cn/base/app0?table=tbl0&view=vew0");
     USER_ID_TYPE := None |}.

Definition sample_push (papers : list pyval) : M (@run_state nat Z) () :=
  push_results_to_lark_table sample_service sample_clock (Z.mul 1000)
    sample_urlparse sample_parse_qs sample_env papers.

Definition start : @run_state nat Z := {| service := 0%nat; console := [] |}.

(** What is printed, without the echo of the requests and responses. *)
Definition outcome_lines (s : @run_state nat Z) : list (logline Z) :=
  List.filter (λ l, match l with
                    | Out (Sending _) | Out (ResponseJson _)
                    | Out (ParsedBaseUrl _ _) => false
                    | _ => true
                    end) (console s).

End SinkSamples.

(** ** Properties of the cross-category deduplicator *)

Section CrossCategory.
Import Py ArxivPaper Props.

Lemma bind_Ok {A B} (r : result A) (f : A → result B) (b : B) :
  r ≫= f = Ok b ↔ ∃ a, r = Ok a ∧ f a = Ok b.
Proof.
  destruct r as [a|e]; simpl; split.
  - eauto.
  - by intros (a' & [= ->] & ?).
  - done.
  - by intros (? & ? & ?).
Qed.

Lemma paper_key_unfold paper {B} (f : key → result B) :
  (i ← subscript paper (str_of "id"); k ← hash_key i; f k)
  = paper_key paper ≫= f.
Proof. unfold paper_key. by destruct (subscript _ _). Qed.

Lemma dedup_loop_firsts papers seen acc :
  dedup_loop papers seen acc = (r ← firsts seen papers; Ok (acc ++ r)).
Proof.
  revert seen acc. induction papers as [|p ps IH]; intros seen acc; simpl.
  - by rewrite app_nil_r.
  - rewrite paper_key_unfold. destruct (paper_key p) as [k|e]; simpl; [|done].
    destruct (decide (k ∈ seen)); [apply IH|].
    rewrite IH. destruct (firsts _ ps); simpl; [|done].
    by rewrite <- app_assoc.
Qed.

Lemma dedup_firsts papers :
  deduplicate_papers_across_categories papers = firsts ∅ papers.
Proof.
  unfold deduplicate_papers_across_categories. rewrite dedup_loop_firsts.
  by destruct (firsts ∅ papers).
Qed.






Lemma firsts_idem seen papers out :
  firsts seen papers = Ok out → firsts seen out = Ok out.
Proof.
  revert seen out. induction papers as [|p ps IH]; intros seen out; simpl.
  - by intros [= <-].
  - intros (k & Hk & H)%bind_Ok. destruct (decide (k ∈ seen)); [by apply IH|].
    apply bind_Ok in H as (r & Hr & [= <-]). simpl. rewrite Hk. simpl.
    destruct (decide (k ∈ seen)); [done|]. by rewrite (IH _ _ Hr).
Qed.

Example dedup_sample :
  deduplicate_papers_across_categories sample_papers
  = Ok [sample_paper "2401.00001" "Quantum error correction";
        sample_paper "2401.00002" "A study of quantumly things";
        sample_paper "2401.00003" "robots and QUANTUM sensors"].
Proof. reflexivity. Qed.



(** C8.  [deduplicate_papers_across_categories] is idempotent: running it
    on its own result gives that result again (and where the first run
    raises, so does the composition). *)
Theorem cross_category_dedup_idempotent (papers : list pyval) :
  deduplicate_papers_across_categories papers
    ≫= deduplicate_papers_across_categories
  = deduplicate_papers_across_categories papers.
Proof.
  destruct (deduplicate_papers_across_categories papers) as [out|e] eqn:H;
    simpl; [|done].
  rewrite dedup_firsts in H. rewrite dedup_firsts. by eapply firsts_idem.
Qed.

End CrossCategory.

(** ** Properties of the keyword filter *)

Section KeywordFilter.
Import Py ArxivPaper Props.
Variable lower : pystr → pystr.

Lemma keyword_set_meets keyword_list (tokens : list pystr) :
  list_to_set (lower <$> keyword_list) ∩ list_to_set tokens ≠@{gset pystr} ∅
  ↔ Exists (λ kw, lower kw ∈ tokens) keyword_list.
Proof.
  rewrite Exists_exists. split.
  - intros (t & Ht)%set_choose_L.
    apply elem_of_intersection in Ht as [Hk Ht].
    apply elem_of_list_to_set, list_elem_of_fmap in Hk as (kw & -> & Hkw).
    apply elem_of_list_to_set in Ht. eauto.
  - intros (kw & Hkw & Ht) Hempty.
    assert (lower kw ∈@{gset pystr} ∅) as []%not_elem_of_empty.
    rewrite <- Hempty. apply elem_of_intersection. split.
    + apply elem_of_list_to_set, list_elem_of_fmap. eauto.
    + by apply elem_of_list_to_set.
Qed.

Lemma keyword_loop_filter keyword_list papers results :
  Forall has_summary papers →
  keyword_loop lower (list_to_set (lower <$> keyword_list)) papers results
  = Ok (results ++ filter (keyword_match lower keyword_list) papers).
Proof.
  intros H. revert results.
  induction H as [|p ps [s Hs] _ IH]; intros results; simpl.
  - by rewrite app_nil_r.
  - rewrite Hs. simpl. rewrite filter_cons.
    destruct (decide (keyword_match _ _ p)) as [Hm|Hm];
      unfold keyword_match in Hm; rewrite Hs in Hm;
      rewrite <- keyword_set_meets in Hm.
    + rewrite decide_True by done. rewrite IH. by rewrite <- app_assoc.
    + rewrite decide_False by done. apply IH.
Qed.

Example keyword_filter_sample :
  filter_papers_by_keyword ascii_lower sample_papers [str_of "Quantum"]
  = Ok [sample_paper "2401.00001" "Quantum error correction";
        sample_paper "2401.00003" "robots and QUANTUM sensors"].
Proof. vm_compute. reflexivity. Qed.

(** C4.  On papers whose ['summary'] is a string,
    [filter_papers_by_keyword] returns, in input order, exactly the papers
    for which some lowercased keyword is equal to one of the
    whitespace-delimited tokens of the lowercased summary: a paper is
    retained iff it is in the input and meets this criterion, the result is
    a subsequence of the input, and with no keyword the result is empty. *)
Theorem keyword_filter_exact_tokens (papers : list pyval)
    (keyword_list : list pystr) :
  Forall has_summary papers →
  ∃ out,
    filter_papers_by_keyword lower papers keyword_list = Ok out
    ∧ out = filter (keyword_match lower keyword_list) papers
    ∧ (∀ p, p ∈ out ↔ p ∈ papers ∧
         ∃ s kw, subscript p (str_of "summary") = Ok (PStr s)
                 ∧ kw ∈ keyword_list ∧ lower kw ∈ split (lower s))
    ∧ out `sublist_of` papers
    ∧ (keyword_list = [] → out = []).
Proof.
  intros H. eexists. split.
  { unfold filter_papers_by_keyword. by rewrite keyword_loop_filter. }
  split; [done|]. simpl. split; [|split].
  - intros p. rewrite list_elem_of_filter. split.
    + intros [Hm Hp]. split; [done|]. unfold keyword_match in Hm.
      destruct (subscript p _) as [[| | |s| |]|]; try done.
      apply Exists_exists in Hm as (kw & ? & ?). by exists s, kw.
    + intros [Hp (s & kw & Hs & Hkw & Ht)]. split; [|done].
      unfold keyword_match. rewrite Hs. apply Exists_exists. eauto.
  - apply sublist_filter.
  - intros ->. induction papers as [|p ps IH]; [done|].
    rewrite filter_cons. inversion H; subst.
    rewrite decide_False; [by apply IH|].
    unfold keyword_match.
    destruct (subscript p _) as [[]|]; intros Hx; try done.
    by apply Exists_nil in Hx.
Qed.

(** A token of [split] has no whitespace in it. *)
Lemma split_from_no_space cur s t :
  Forall (λ c, isspace c = false) cur →
  t ∈ split_from cur s → Forall (λ c, isspace c = false) t.
Proof.
  revert cur. induction s as [|c s IH]; intros cur Hcur; simpl.
  - destruct cur; [by intros ?%elem_of_nil|].
    intros ->%list_elem_of_singleton. by apply Forall_rev.
  - destruct (isspace c) eqn:Hc.
    + destruct cur as [|c' cur'].
      * by apply IH.
      * intros [->|Ht]%elem_of_cons; [by apply Forall_rev|].
        by apply (IH []).
    + apply IH. by constructor.
Qed.

Lemma split_no_space s t : t ∈ split s → ¬ has_space t.
Proof.
  intros Ht%split_from_no_space; [|done].
  unfold has_space. rewrite Exists_exists. intros (c & Hc & Hsp).
  rewrite Forall_forall in Ht. specialize (Ht c Hc). congruence.
Qed.

(** C10.  [str.lower] keeps whitespace, and the tokens of a summary have
    none: when every keyword has a whitespace code point in it, no paper
    passes, and [filter_papers_by_keyword] returns the empty list. *)
Theorem keyword_with_space_never_matches (papers : list pyval)
    (keyword_list : list pystr) :
  (∀ s, has_space s → has_space (lower s)) →
  Forall has_summary papers →
  Forall has_space keyword_list →
  filter_papers_by_keyword lower papers keyword_list = Ok [].
Proof.
  intros Hlower Hpapers Hkw. unfold filter_papers_by_keyword.
  rewrite keyword_loop_filter by done. simpl. f_equal.
  clear Hpapers. induction papers as [|p ps IH]; [done|].
  rewrite filter_cons, decide_False; [done|].
  unfold keyword_match.
  destruct (subscript p _) as [[| | |s| |]|]; try by intros [].
  rewrite Exists_exists. intros (kw & Hin & Htok).
  apply split_no_space in Htok. apply Htok, Hlower.
  rewrite Forall_forall in Hkw. by apply Hkw.
Qed.

End KeywordFilter.

Lemma ascii_lower_keeps_space s :
  Props.has_space s → Props.has_space (Props.ascii_lower s).
Proof.
  unfold Props.has_space, Props.ascii_lower.
  rewrite !Exists_exists. intros (c & Hc & Hsp). exists c. split; [|done].
  apply list_elem_of_fmap. exists c. split; [|done].
  case_bool_decide as Hr; [|done].
  unfold Py.isspace in Hsp. apply bool_decide_eq_true in Hsp.
  repeat (apply elem_of_cons in Hsp as [->|Hsp]; [lia|]).
  by apply elem_of_nil in Hsp.
Qed.

Lemma sample_papers_have_summaries :
  Forall Props.has_summary Props.sample_papers.
Proof. repeat constructor; eexists; reflexivity. Qed.

Lemma keyword_filter_exact_tokens_witness :
  ∃ out,
    ArxivPaper.filter_papers_by_keyword Props.ascii_lower Props.sample_papers
      [Py.str_of "Quantum"] = Py.Ok out
    ∧ length out = 2%nat.
Proof.
  destruct (keyword_filter_exact_tokens Props.ascii_lower Props.sample_papers
              [Py.str_of "Quantum"] sample_papers_have_summaries)
    as (out & Hout & -> & _).
  eexists. split; [exact Hout|]. vm_compute. reflexivity.
Defined.

Lemma keyword_with_space_never_matches_witness :
  ArxivPaper.filter_papers_by_keyword Props.ascii_lower Props.sample_papers
    [Py.str_of "error correction"; Py.str_of "quantum "] = Py.Ok [].
Proof.
  apply (keyword_with_space_never_matches Props.ascii_lower).
  - exact ascii_lower_keeps_space.
  - exact sample_papers_have_summaries.
  - apply Forall_cons; split; [|apply Forall_cons; split; [|constructor]];
      apply Exists_exists; exists 32%N;
      (split; [apply (bool_decide_unpack _); vm_compute; exact I
              |reflexivity]).
Defined.

(** ** Loops *)

Section Loops.
Import Py.
Context {S A B : Type}.

Lemma for_acc_app (xs ys : list A) (acc : B) (body : B → A → M S B) s :
  for_acc (xs ++ ys) acc body s
  = bind (for_acc xs acc body) (λ acc', for_acc ys acc' body) s.
Proof.
  revert acc s. induction xs as [|x xs IH]; intros acc s; simpl; [done|].
  unfold bind. destruct (body acc x s) as [s1 [acc1|e]]; [|done].
  by rewrite IH.
Qed.


End Loops.

(** ** Properties of the relevance filter *)

Section RelevanceFilter.
Import Py ArxivPaper Props.
Context {world : Type}.
Variable is_paper_match : pyval → pystr → pyval → M world pyval.

(** C1, as amended.  [filter_papers_using_llm] has no handler around the
    call of [is_paper_match].  When the papers [pre] have been classified
    and the call on the next paper [p] raises, the filter raises that
    exception, whatever papers follow: no list is returned and the
    remaining papers are not classified.  When the call answers, [p] is
    kept, after the papers kept so far, iff the answer is truthy. *)
Theorem llm_filter_failure_propagates (pre post : list pyval) (p : pyval)
    (paper_to_hunt : pystr) (config : pyval) (w w1 : world)
    (kept : list pyval) :
  filter_papers_using_llm is_paper_match pre paper_to_hunt config w
    = (w1, Ok kept) →
  match is_paper_match p paper_to_hunt config w1 with
  | (w2, Raise e) =>
      filter_papers_using_llm is_paper_match (pre ++ p :: post)
        paper_to_hunt config w = (w2, Raise e)
  | (w2, Ok matched) =>
      filter_papers_using_llm is_paper_match (pre ++ [p])
        paper_to_hunt config w
      = (w2, Ok (if truthy matched then kept ++ [p] else kept))
  end.
Proof.
  unfold filter_papers_using_llm. intros Hpre.
  destruct (is_paper_match p paper_to_hunt config w1) as [w2 [v|e]] eqn:Hp.
  - rewrite for_acc_app. unfold bind at 1. rewrite Hpre. simpl.
    unfold bind, classify, mbind, M_bind, bind. rewrite Hp.
    by destruct (truthy v).
  - rewrite for_acc_app. unfold bind at 1. rewrite Hpre. simpl.
    unfold bind, classify, mbind, M_bind, bind. by rewrite Hp.
Qed.

End RelevanceFilter.

Example llm_filter_sample :
  ArxivPaper.filter_papers_using_llm Props.sample_match
    [Props.sample_paper "2401.00001" "Quantum error correction";
     Props.sample_paper "2401.00003" "robots and QUANTUM sensors"]
    Props.sample_topic Props.sample_config 0%nat
  = (2%nat, Py.Ok
       [Props.sample_paper "2401.00001" "Quantum error correction";
        Props.sample_paper "2401.00003" "robots and QUANTUM sensors"]).
Proof. reflexivity. Qed.

(** C1, as stated, fails: the service fails on the second of the sample
    papers, and the filter raises instead of returning the other
    papers. *)
Lemma llm_filter_aborts_on_failure :
  ArxivPaper.filter_papers_using_llm Props.sample_match Props.sample_papers
    Props.sample_topic Props.sample_config 0%nat
  = (2%nat, Py.Raise (Py.ServiceError (Py.str_of "service unavailable")))
  ∧ ¬ ∃ w out,
      ArxivPaper.filter_papers_using_llm Props.sample_match
        Props.sample_papers Props.sample_topic Props.sample_config 0%nat
      = (w, Py.Ok out).
Proof.
  split; [reflexivity|]. intros (w & out & H). vm_compute in H. discriminate.
Qed.

Lemma llm_filter_failure_propagates_witness :
  ArxivPaper.filter_papers_using_llm Props.sample_match
    ([Props.sample_paper "2401.00001" "Quantum error correction"]
     ++ Props.sample_paper "2401.00002" "A study of quantumly things"
     :: [Props.sample_paper "2401.00003" "robots and QUANTUM sensors"])
    Props.sample_topic Props.sample_config 0%nat
  = (2%nat, Py.Raise (Py.ServiceError (Py.str_of "service unavailable"))).
Proof.
  apply (llm_filter_failure_propagates Props.sample_match
           [Props.sample_paper "2401.00001" "Quantum error correction"]
           [Props.sample_paper "2401.00003" "robots and QUANTUM sensors"]
           (Props.sample_paper "2401.00002" "A study of quantumly things")
           Props.sample_topic Props.sample_config 0%nat 1%nat
           [Props.sample_paper "2401.00001" "Quantum error correction"]).
  reflexivity.
Defined.

(** ** Properties of the enrichment stage *)

Section Dicts.
Import Py.




End Dicts.

Section Enrichment.
Import Py ArxivPaper Props.
Context {world : Type}.
Variable translate_abstract : pyval → pyval → M world pyval.





End Enrichment.

Example translate_abstracts_sample :
  let '((h', calls), r) :=
    ArxivPaper.translate_abstracts Props.sample_translate [0; 2; 3]%nat
      Props.sample_config (Props.sample_heap, 0%nat) in
  r = Py.Ok [0; 2; 3]%nat
  ∧ calls = 3%nat
  ∧ Py.subscript (h' 0%nat) (Py.str_of "zh_summary")
    = Py.Ok (Py.PStr (Py.str_of "zh: Quantum error correction"))
  ∧ Py.subscript (h' 2%nat) (Py.str_of "zh_summary") = Py.Ok Py.PNone
  ∧ Py.subscript (h' 1%nat) (Py.str_of "zh_summary")
    = Py.Raise (Py.KeyError (Py.str_of "zh_summary")).
Proof. vm_compute. repeat split; reflexivity. Qed.



(** ** Properties of the record store *)

Section RecordStore.
Import Py ArxivPaper Props.
Variable json_loads : pystr → option pyval.
Variable json_dumps : pyval → pystr.

Lemma truthy_text (text : pystr) : text ≠ [] → truthy (PStr text) = true.
Proof. by destruct text. Qed.

(** One call of [prepend_to_json_file] replaces the text of the file by
    the serialisation of the new entries followed by the stored ones. *)
Lemma prepend_writes fs path data entries :
  store_holds json_loads fs path entries →
  prepend_to_json_file json_loads json_dumps path data fs
  = (<[path := json_dumps (PList (data ++ entries))]> fs, Ok ()).
Proof.
  unfold prepend_to_json_file, mbind, M_bind, bind, os_path_exists,
    read_text, open_w, write_text, lift, mret, M_ret, ret, loads.
  intros [[[H|H] ->]|(text & H & Hne & Hload)];
    rewrite H; simpl; rewrite ?H; simpl.
  - by rewrite insert_insert_eq.
  - by rewrite insert_insert_eq.
  - destruct text as [|c text]; [done|]. rewrite Hload. simpl.
    by rewrite insert_insert_eq.
Qed.

Lemma read_after_prepend fs path data entries :
  store_holds json_loads fs path entries →
  json_loads (json_dumps (PList (data ++ entries)))
    = Some (PList (data ++ entries)) →
  read_store json_loads
    (prepend_to_json_file json_loads json_dumps path data fs).1 path
  = Some (PList (data ++ entries)).
Proof.
  intros Hs Hrt. rewrite (prepend_writes _ _ _ _ Hs). simpl.
  unfold read_store. by rewrite lookup_insert_eq.
Qed.

(** Two calls in a row, on a store that holds [entries]: the file then
    reads as the second list, the first list and the stored entries, in
    this order. *)
Lemma prepend_twice fs path A B entries :
  store_holds json_loads fs path entries →
  json_loads [] = None →
  json_loads (json_dumps (PList (A ++ entries)))
    = Some (PList (A ++ entries)) →
  json_loads (json_dumps (PList (B ++ A ++ entries)))
    = Some (PList (B ++ A ++ entries)) →
  read_store json_loads
    (prepend_to_json_file json_loads json_dumps path B
       (prepend_to_json_file json_loads json_dumps path A fs).1).1 path
  = Some (PList (B ++ A ++ entries)).
Proof.
  intros Hs Hempty HA HBA. apply read_after_prepend; [|done].
  rewrite (prepend_writes _ _ _ _ Hs). simpl. right.
  exists (json_dumps (PList (A ++ entries))).
  split; [apply lookup_insert_eq|]. split; [|done].
  intros Heq. rewrite Heq in HA. congruence.
Qed.

(** C5.  With a codec that rejects the empty text and decodes what it
    has encoded of the lists written: on a store file that is missing or
    empty, [prepend_to_json_file path A] returns and the file then reads as
    [A]; a following [prepend_to_json_file path B] returns and the file then
    reads as [B ++ A]. *)
Theorem prepend_then_read (path : pystr) (A B : list pyval)
    (fs : filesystem) :
  json_loads [] = None →
  json_loads (json_dumps (PList A)) = Some (PList A) →
  json_loads (json_dumps (PList (B ++ A))) = Some (PList (B ++ A)) →
  fs !! path = None ∨ fs !! path = Some [] →
  ∃ fs1 fs2,
    prepend_to_json_file json_loads json_dumps path A fs = (fs1, Ok ())
    ∧ read_store json_loads fs1 path = Some (PList A)
    ∧ prepend_to_json_file json_loads json_dumps path B fs1 = (fs2, Ok ())
    ∧ read_store json_loads fs2 path = Some (PList (B ++ A)).
Proof.
  intros Hempty HA HBA Hfs.
  assert (store_holds json_loads fs path []) as H0 by (left; done).
  pose proof (prepend_writes fs path A [] H0) as H1.
  rewrite app_nil_r in H1.
  set (fs1 := <[path := json_dumps (PList A)]> fs) in *.
  assert (store_holds json_loads fs1 path A) as HsA.
  { right. exists (json_dumps (PList A)). split; [apply lookup_insert_eq|].
    split; [|done]. intros Heq. rewrite Heq in HA. congruence. }
  pose proof (prepend_writes fs1 path B A HsA) as H2.
  eexists _, _. split; [exact H1|]. split.
  { unfold read_store, fs1. by rewrite lookup_insert_eq. }
  split; [exact H2|].
  unfold read_store. by rewrite lookup_insert_eq.
Qed.

(** [deduplicate_papers] reads the file system and leaves it as it is. *)
Lemma deduplicate_papers_unfold papers path fs :
  deduplicate_papers json_loads papers path fs
  = (fs, match fs !! path with
         | Some text =>
             if truthy (PStr text) then
               content ← loads json_loads text;
               items ← py_iter content;
               content_id ← id_set items ∅;
               not_in_store content_id papers
             else Ok papers
         | None => Ok papers
         end).
Proof.
  unfold deduplicate_papers, mbind at 1 2 3 4 5, M_bind, bind, os_path_exists,
    read_text, lift, mret, M_ret, ret.
  destruct (fs !! path) as [text|] eqn:Hfs; simpl; [|done].
  rewrite Hfs. destruct text as [|c text]; [done|].
  destruct (loads json_loads (c :: text)) as [v|]; [|done]. simpl.
  destruct (py_iter v); [|done]. simpl.
  by destruct (id_set _ _).
Qed.

(** The set built from the stored entries is the set of their ids. *)
Lemma id_set_keys (entries : list pyval) (acc : gset key) :
  Forall has_key entries →
  ∃ ids, id_set entries acc = Ok ids
         ∧ ∀ k, k ∈ ids ↔ k ∈ acc ∨ Some k ∈ key_of <$> entries.
Proof.
  intros H. revert acc. induction H as [|d ds [k Hk] _ IH]; intros acc.
  - exists acc. split; [done|]. intros k. rewrite fmap_nil, elem_of_nil.
    tauto.
  - simpl. rewrite paper_key_unfold, Hk. simpl.
    destruct (IH ({[k]} ∪ acc)) as (ids & -> & Hids).
    exists ids. split; [done|]. intros k'. rewrite Hids.
    rewrite ?fmap_cons, elem_of_cons, elem_of_union, elem_of_singleton.
    assert (key_of d = Some k) as -> by (unfold key_of; by rewrite Hk).
    split.
    + intros [[->| ?]| ?]; auto.
    + intros [?|[[= ->]| ?]]; auto.
Qed.

Lemma not_in_store_filter (ids : gset key) (entries papers : list pyval) :
  (∀ k, k ∈ ids ↔ Some k ∈ key_of <$> entries) →
  Forall has_key papers →
  not_in_store ids papers
  = Ok (filter (λ p, key_of p ∉ key_of <$> entries) papers).
Proof.
  intros Hids H. induction H as [|p ps [k Hk] _ IH]; [done|].
  simpl. rewrite paper_key_unfold, Hk. simpl. rewrite IH. simpl.
  rewrite filter_cons.
  assert (key_of p = Some k) as -> by (unfold key_of; by rewrite Hk).
  destruct (decide (k ∈ ids)) as [Hin|Hin]; rewrite Hids in Hin.
  - by rewrite decide_False by auto.
  - by rewrite decide_True.
Qed.

(** C6.  [deduplicate_papers] never changes the file system.  When the
    store file is missing or empty it returns the candidates as they are.
    When the file holds a list of entries with ids, it returns, in input
    order, exactly the candidates whose id is not the id of a stored
    entry. *)
Theorem cross_run_dedup (papers : list pyval) (path : pystr)
    (fs : filesystem) :
  (deduplicate_papers json_loads papers path fs).1 = fs
  ∧ (fs !! path = None ∨ fs !! path = Some [] →
     (deduplicate_papers json_loads papers path fs).2 = Ok papers)
  ∧ (∀ (text : pystr) (entries : list pyval),
       fs !! path = Some text → text ≠ [] →
       json_loads text = Some (PList entries) →
       Forall has_key entries → Forall has_key papers →
       (deduplicate_papers json_loads papers path fs).2
       = Ok (filter (λ p, key_of p ∉ key_of <$> entries) papers)).
Proof.
  rewrite deduplicate_papers_unfold. simpl. split; [done|]. split.
  - by intros [->| ->].
  - intros text entries -> Hne Hload Hentries Hpapers.
    destruct text as [|c text]; [done|]. unfold loads. rewrite Hload. simpl.
    destruct (id_set_keys entries ∅ Hentries) as (ids & -> & Hids).
    simpl. apply not_in_store_filter; [|done].
    intros k. rewrite Hids. rewrite elem_of_empty. tauto.
Qed.

(** C7.  When the store file exists and its text is not empty and is not
    valid JSON, [deduplicate_papers] raises the decoder's exception; it
    returns no list. *)
Theorem malformed_store_raises (papers : list pyval) (path text : pystr)
    (fs : filesystem) :
  fs !! path = Some text → text ≠ [] → json_loads text = None →
  deduplicate_papers json_loads papers path fs = (fs, Raise JSONDecodeError).
Proof.
  intros Hfs Hne Hload. rewrite deduplicate_papers_unfold, Hfs.
  rewrite truthy_text by done. unfold loads. by rewrite Hload.
Qed.

End RecordStore.

Section RecordStoreSamples.
Import Py ArxivPaper Props.

Example sample_store_text :
  sample_fs !! sample_store_path
  = Some (str_of "[{" ++ [34; 105; 100; 34]%N ++ str_of ": "
          ++ [34; 97; 34]%N ++ str_of "}, {" ++ [34; 105; 100; 34]%N
          ++ str_of ": " ++ [34; 98; 34]%N ++ str_of "}]").
Proof. vm_compute. reflexivity. Qed.

(** The store holds the ids a and b; of the candidates a and c, c is
    new. *)
Lemma cross_run_dedup_witness :
  (deduplicate_papers (sample_loads [PList stored_ab])
     [id_only "a"; id_only "c"] sample_store_path sample_fs).2
  = Ok [id_only "c"].
Proof.
  rewrite (proj2 (proj2 (cross_run_dedup (sample_loads [PList stored_ab])
                           [id_only "a"; id_only "c"] sample_store_path
                           sample_fs))
             (sample_dumps (PList stored_ab)) stored_ab).
  - vm_compute. reflexivity.
  - vm_compute. reflexivity.
  - discriminate.
  - vm_compute. reflexivity.
  - repeat constructor; eexists; reflexivity.
  - repeat constructor; eexists; reflexivity.
Defined.

Lemma malformed_store_raises_witness :
  deduplicate_papers (sample_loads [PList stored_ab])
    [id_only "a"; id_only "c"] sample_store_path
    {[ sample_store_path := str_of "[{ not json" ]}
  = ({[ sample_store_path := str_of "[{ not json" ]}, Raise JSONDecodeError).
Proof.
  apply (malformed_store_raises (sample_loads [PList stored_ab])
           [id_only "a"; id_only "c"] sample_store_path
           (str_of "[{ not json")).
  - vm_compute. reflexivity.
  - discriminate.
  - vm_compute. reflexivity.
Defined.

Lemma prepend_then_read_witness :
  let A := [id_only "a"] in
  let B := [id_only "b"; id_only "c"] in
  let json_loads := sample_loads [PList A; PList (B ++ A)] in
  ∃ fs1 fs2,
    prepend_to_json_file json_loads sample_dumps sample_store_path A ∅
      = (fs1, Ok ())
    ∧ read_store json_loads fs1 sample_store_path = Some (PList A)
    ∧ prepend_to_json_file json_loads sample_dumps sample_store_path B fs1
      = (fs2, Ok ())
    ∧ read_store json_loads fs2 sample_store_path = Some (PList (B ++ A)).
Proof.
  intros A B json_loads.
  apply (prepend_then_read json_loads sample_dumps sample_store_path A B ∅).
  - vm_compute. reflexivity.
  - vm_compute. reflexivity.
  - vm_compute. reflexivity.
  - left. apply lookup_empty.
Defined.

End RecordStoreSamples.

(** ** Which computations raise, and what *)

Section Raising.
Import Py Props.
Context {S : Type}.



Lemma roe_ret {A} (a : A) : raises_only_Exception (mret a : M S A).
Proof. by intros s s' e [= _ ?]. Qed.

Lemma roe_raise {A} e :
  is_Exception e = true → raises_only_Exception (raise e : M S A).
Proof. by intros He s s' e' [= _ <-]. Qed.

Lemma roe_bind {A B} (m : M S A) (f : A → M S B) :
  raises_only_Exception m → (∀ a, raises_only_Exception (f a)) →
  raises_only_Exception (m ≫= f).
Proof.
  intros Hm Hf s s' e. unfold mbind, M_bind, bind.
  destruct (m s) as [s1 [a|e1]] eqn:Hms.
  - apply Hf.
  - intros [= <- <-]. by eapply Hm.
Qed.

Lemma roe_try_except {A} (m : M S A) (h : exn → M S A) :
  raises_only_Exception m →
  (∀ e, is_Exception e = true → raises_only_Exception (h e)) →
  raises_only_Exception (try_except m h).
Proof.
  intros Hm Hh s s' e. unfold try_except.
  destruct (m s) as [s1 [a|e1]] eqn:Hms; [done|].
  rewrite (Hm _ _ _ Hms). by apply Hh, (Hm _ _ _ Hms).
Qed.

Lemma roe_subscript v k :
  raises_only_Exception (lift (subscript v k) : M S pyval).
Proof.
  intros s s' e [= _ H]. unfold subscript in H.
  destruct v; try by injection H as <-.
  destruct (dict_get d k); [done|]. by injection H as <-.
Qed.

Lemma roe_get_method v k dflt :
  raises_only_Exception (lift (get_method v k dflt) : M S pyval).
Proof.
  intros s s' e [= _ H]. unfold get_method in H.
  destruct v; by try injection H as <-.
Qed.

Lemma never_raises_try_except {A} (m : M S A) (h : exn → M S A) :
  raises_only_Exception m →
  (∀ e, is_Exception e = true → never_raises (h e)) →
  never_raises (try_except m h).
Proof.
  intros Hm Hh s. unfold try_except.
  destruct (m s) as [s1 [a|e1]] eqn:Hms; [by eauto|].
  rewrite (Hm _ _ _ Hms). by apply Hh, (Hm _ _ _ Hms).
Qed.

Lemma never_raises_ret {A} (a : A) : never_raises (mret a : M S A).
Proof. intros s. by exists s, a. Qed.

Lemma never_raises_bind {A B} (m : M S A) (f : A → M S B) :
  never_raises m → (∀ a, never_raises (f a)) → never_raises (m ≫= f).
Proof.
  intros Hm Hf s. unfold mbind, M_bind, bind.
  destruct (Hm s) as (s1 & a & ->). apply Hf.
Qed.

End Raising.

(** ** Properties of the sink *)

Section SinkProperties.
Import Py LarkTable Props.
Context {world float : Type}.
Variable requests_send : request float → world → world * http_outcome.
Variable time_time : world → world * float.
Variable times_1000 : float → float.
Variable urlparse : pystr → option (pystr * pystr).
Variable parse_qs : pystr → gmap pystr (list pystr).
Variable env : environ.

Local Abbreviation state := (@run_state world float).

Lemma roe_print (l : logline float) :
  raises_only_Exception (print l : M state ()).
Proof. by intros s s' e. Qed.

Lemma roe_send_checked r :
  raises_only_Exception (send_checked requests_send r).
Proof.
  intros s s' e. unfold send_checked, mbind, M_bind, bind, send.
  destruct (requests_send r (service s)) as [w [what|code text body]].
  - by intros [= _ <-].
  - case_bool_decide; [by intros [= _ <-]|done].
Qed.

Lemma roe_response_json body :
  raises_only_Exception (response_json body : M state pyval).
Proof. destruct body; [apply roe_ret|by apply roe_raise]. Qed.

Lemma never_raises_print (l : logline float) :
  never_raises (print l : M state ()).
Proof. intros s. by eexists _, _. Qed.

Lemma never_raises_print_response_text e :
  never_raises (print_response_text e : M state ()).
Proof. destruct e; try apply never_raises_ret. apply never_raises_print. Qed.

Lemma roe_print_response_text e :
  raises_only_Exception (print_response_text e : M state ()).
Proof. destruct e; try apply roe_ret. apply roe_print. Qed.

Ltac raising :=
  repeat first
    [ apply roe_print | apply roe_send_checked | apply roe_response_json
    | apply roe_print_response_text
    | apply roe_subscript | apply roe_get_method | apply roe_ret
    | apply roe_raise; first [reflexivity | assumption]
    | apply never_raises_print | apply never_raises_print_response_text
    | apply never_raises_ret
    | apply roe_bind; [|intros ?]
    | apply roe_try_except; [|intros ? ?]
    | apply never_raises_bind; [|intros ?]
    | apply never_raises_try_except; [|intros ? ?]
    | match goal with
      | |- raises_only_Exception (if ?b then _ else _) => destruct b
      | |- raises_only_Exception (match ?x with _ => _ end) => destruct x
      | |- raises_only_Exception (let '(_, _) := ?x in _) => destruct x
      end ].

(** Token acquisition answers with a token or with an error; it does not
    raise. *)
Lemma get_tenant_access_token_never_raises app_id app_secret :
  never_raises (get_tenant_access_token requests_send app_id app_secret).
Proof. unfold get_tenant_access_token. raising. Qed.

(** Record creation answers with a response or with an error; it does not
    raise. *)
Lemma create_bitable_record_never_raises token app_token table_id fields
    user_id_type :
  never_raises (create_bitable_record requests_send token app_token table_id
                  fields user_id_type).
Proof. unfold create_bitable_record. raising. Qed.

(** A refused response makes record creation answer with an error, and a
    refused token request makes token acquisition answer with an error. *)
Lemma create_bitable_record_refused token app_token table_id fields
    user_id_type (s : state) w o :
  requests_send (CreateRecordRequest token app_token table_id fields
                   user_id_type) (service s) = (w, o) →
  refused o →
  ∃ s' e,
    create_bitable_record requests_send token app_token table_id fields
      user_id_type s = (s', Ok (PDict [], Some e))
    ∧ service s' = w.
Proof.
  intros Hsend Hrefused.
  unfold create_bitable_record, try_except, mbind, M_bind, bind, print,
    send_checked, send, mbind, M_bind, bind. simpl. rewrite Hsend.
  destruct o as [what|status_code text body]; simpl; [by eauto|].
  case_bool_decide as Hstatus; simpl; [by eauto|].
  destruct Hrefused as [?|Hbody]; [done|].
  destruct body as [[| | | | |d]|]; simpl; try by eauto.
  rewrite Hbody. simpl. by eauto.
Qed.

Lemma get_tenant_access_token_refused app_id app_secret (s : state) w o :
  requests_send (TenantAccessTokenRequest app_id app_secret) (service s)
    = (w, o) →
  refused o →
  ∃ s' e,
    get_tenant_access_token requests_send app_id app_secret s
      = (s', Ok (PStr [], Some e))
    ∧ service s' = w.
Proof.
  intros Hsend Hrefused.
  unfold get_tenant_access_token, try_except, mbind, M_bind, bind, print,
    send_checked, send, mbind, M_bind, bind. simpl. rewrite Hsend.
  destruct o as [what|status_code text body]; simpl; [by eauto|].
  case_bool_decide as Hstatus; simpl; [by eauto|].
  destruct Hrefused as [?|Hbody]; [done|].
  destruct body as [[| | | | |d]|]; simpl; try by eauto.
  rewrite Hbody. simpl. by eauto.
Qed.




Local Abbreviation push :=
  (push_results_to_lark_table requests_send time_time times_1000 urlparse
     parse_qs env).
Local Abbreviation push_one :=
  (push_paper requests_send time_time times_1000 urlparse parse_qs env).






End SinkProperties.

(** A response that lacks the record id, and one whose ['data'] is not an
    object. *)
Example record_id_absent :
  LarkTable.record_id_of (Py.PDict [(Py.str_of "code", Py.PInt 0)])
  = Py.Ok (Py.PStr []).
Proof. reflexivity. Qed.

Example record_id_of_null_data :
  LarkTable.record_id_of
    (Py.PDict [(Py.str_of "code", Py.PInt 0); (Py.str_of "data", Py.PNone)])
  = Py.Raise Py.AttributeError.
Proof. reflexivity. Qed.

Example push_sample_run :
  let '(s, r) := SinkSamples.sample_push
                   [SinkSamples.sink_paper "Fine";
                    SinkSamples.sink_paper "No id";
                    SinkSamples.sink_paper "Refused";
                    SinkSamples.sink_paper "Fine"] SinkSamples.start in
  r = Py.Raise (Py.SystemExit 1)
  ∧ LarkTable.service s = 6%nat
  ∧ SinkSamples.outcome_lines s
    = [LarkTable.Out (LarkTable.RecordCreated (Py.PStr (Py.str_of "rec0")));
       LarkTable.Out LarkTable.RecordCreatedWithoutId;
       LarkTable.Err (LarkTable.RecordError
                        (Py.HTTPError 403 (Py.str_of "(forbidden)")));
       LarkTable.Err (LarkTable.ResponseText (Py.str_of "(forbidden)"));
       LarkTable.Err (LarkTable.PushRecordFailed
                        (Py.HTTPError 403 (Py.str_of "(forbidden)")))].
Proof. vm_compute. repeat split; reflexivity. Qed.

